(** * pygmt.src.project: the argument-marshalling wrapper around GMT's
    [project] module, embedded from [src/pygmt/src/project.py].

    The body of [project] is translated statement by statement.  Python
    values are a small inductive type, the keyword dictionary is a [gmap]
    keyed by the single-letter flags, exceptions are an inductive type and
    the calls into the session layer are recorded in a trace of events.
    The helpers the function imports ([data_kind], [build_arg_string],
    [GMTTempFile], the [Session] methods and pandas' [read_csv]) are not
    among the sources: they are the fields of a record [Collaborators]. *)

From Stdlib Require Import ZArith Ascii String List Lia.
From stdpp Require Import base option list strings pretty gmap.

Local Open Scope string_scope.
Local Open Scope list_scope.

#[local] Set Warnings "-clear-no-such-hyp".

(** ** Python values *)

(** The scalars that occur as elements of [center], as option values and
    as column labels.  A float is carried by the text Python prints for
    it. *)
Inductive scalar : Type :=
| SNone
| SBool (b : bool)
| SInt (z : Z)
| SFloat (repr : string)
| SStr (s : string).

(** An option value: a scalar, or a sequence of scalars. *)
Inductive pyval : Type :=
| Scalar (v : scalar)
| Seq (items : list scalar).

(** [center] is documented as "str or list" (line 109). *)
Inductive center_t : Type :=
| CStr (s : string)
| CSeq (items : list scalar).

(** A [pandas.DataFrame]: the ordered column labels and the cell matrix. *)
Record DataFrame : Type := mkDataFrame {
  columns : list scalar;
  values : list (list scalar)
}.

(** What a caller can pass as [points]. *)
Inductive points_t : Type :=
| PDataFrame (df : DataFrame)
| PStr (path : string)
| PNone
| PObject (qualname name : string).

(** The exceptions [project] can end with.  [External] is a failure raised
    inside a collaborator, which passes through unmodified; the others are
    raised by the statements of [project] themselves. *)
Inductive exn : Type :=
| GMTInvalidInput (msg : string)
| ValueError (msg : string)
| IndexError (msg : string)
| AttributeError (msg : string)
| TypeError (msg : string)
| External (descr : string).

Inductive result (A : Type) : Type :=
| Ok (a : A)
| Raise (e : exn).
Arguments Ok {A} a.
Arguments Raise {A} e.

(** ** Strings and formatting *)

Definition TAB : string := String (ascii_of_nat 9) EmptyString.

(** [list(s)] for a string: its characters as one-character strings. *)
Definition chars (s : string) : list string :=
  map (fun c => String c EmptyString) (list_ascii_of_string s).

(** [sep.join(l)] *)
Definition join (sep : string) (l : list string) : string :=
  String.concat sep l.

(** [f"{item}"] *)
Definition py_format (v : scalar) : string :=
  match v with
  | SNone => "None"
  | SBool true => "True"
  | SBool false => "False"
  | SInt z => pretty z
  | SFloat r => r
  | SStr s => s
  end.

(** Iterating over [center]: the characters of a string, the items of a
    list. *)
Definition center_items (center : center_t) : list scalar :=
  match center with
  | CStr s => map SStr (chars s)
  | CSeq items => items
  end.

(** Line 218: ["/".join(f"{item}" for item in center)]. *)
Definition center_arg (center : center_t) : string :=
  join "/" (map py_format (center_items center)).

(** [type(points)] as it prints in a message, and the class name alone. *)
Definition type_repr (points : points_t) : string :=
  match points with
  | PDataFrame _ => "<class 'pandas.core.frame.DataFrame'>"
  | PStr _ => "<class 'str'>"
  | PNone => "<class 'NoneType'>"
  | PObject q _ => "<class '" +:+ q +:+ "'>"
  end.

Definition type_name (points : points_t) : string :=
  match points with
  | PDataFrame _ => "DataFrame"
  | PStr _ => "str"
  | PNone => "NoneType"
  | PObject _ n => n
  end.

(** ** Python list operations *)

Module PyList.

(** ["x" == item] for an item of a list of scalars. *)
Definition eq_str (x : string) (item : scalar) : bool :=
  match item with
  | SStr s => String.eqb x s
  | _ => false
  end.

(** Position of the first item equal to the string [x]. *)
Fixpoint find_str (x : string) (l : list scalar) : option nat :=
  match l with
  | [] => None
  | item :: l' =>
      if eq_str x item then Some 0
      else match find_str x l' with
           | Some i => Some (S i)
           | None => None
           end
  end.

(** [l.index(x)] *)
Definition index (x : string) (l : list scalar) : result nat :=
  match find_str x l with
  | Some i => Ok i
  | None => Raise (ValueError ("'" +:+ x +:+ "' is not in list"))
  end.

(** [l[i]] *)
Definition getitem {A} (l : list A) (i : nat) : result A :=
  match l !! i with
  | Some a => Ok a
  | None => Raise (IndexError "list index out of range")
  end.

(** [l[i] = v] *)
Definition setitem {A} (l : list A) (i : nat) (v : A) : result (list A) :=
  if decide (i < length l) then Ok (<[i:=v]> l)
  else Raise (IndexError "list assignment index out of range").

(** [l.pop(i)], keeping the list that is left. *)
Definition pop {A} (l : list A) (i : nat) : result (list A) :=
  if decide (i < length l) then Ok (delete i l)
  else Raise (IndexError "pop index out of range").

(** [l.insert(i, v)]: past the end it appends. *)
Definition insert {A} (l : list A) (i : nat) (v : A) : list A :=
  take i l ++ v :: drop i l.

(** [l[2:]] *)
Definition from2 {A} (l : list A) : list A := drop 2 l.

(** [list(v)] for an option value. *)
Definition of_pyval (v : pyval) : result (list scalar) :=
  match v with
  | Scalar (SStr s) => Ok (map SStr (chars s))
  | Seq items => Ok items
  | Scalar SNone => Raise (TypeError "'NoneType' object is not iterable")
  | Scalar (SBool _) => Raise (TypeError "'bool' object is not iterable")
  | Scalar (SInt _) => Raise (TypeError "'int' object is not iterable")
  | Scalar (SFloat _) => Raise (TypeError "'float' object is not iterable")
  end.

End PyList.

(** ** Events and the computation monad *)

(** What the session layer is asked to do, in order. *)
Inductive event : Type :=
| TempCreate (name : string)
| TempRemove (name : string)
| SessionCreate
| SessionDestroy
| VirtualFileOpen (name : string)
| VirtualFileClose (name : string)
| CallModule (module args : string)
| ReadCsv (path : string) (names : list scalar).

(** A computation ends with a value or an exception, and leaves a trace. *)
Definition M (A : Type) : Type := result A * list event.

Definition ret {A} (a : A) : M A := (Ok a, []).
Definition raise {A} (e : exn) : M A := (Raise e, []).
Definition emit (ev : event) : M unit := (Ok tt, [ev]).
Definition lift {A} (r : result A) : M A := (r, []).

Definition bind {A B} (m : M A) (k : A -> M B) : M B :=
  match m with
  | (Ok a, t) => let '(r, t') := k a in (r, t ++ t')
  | (Raise e, t) => (Raise e, t)
  end.

Notation "'do' x <- m ; k" := (bind m (fun x => k))
  (at level 10, x name, m at level 100, k at level 200).
Notation "'run' m ; k" := (bind m (fun _ => k))
  (at level 10, m at level 100, k at level 200).

(** A [with] block: [leave] runs on every exit path. *)
Definition with_block {A} (enter leave : event) (body : M A) : M A :=
  let '(r, t) := body in (r, enter :: t ++ [leave]).

(** The answer of a collaborator that may fail. *)
Definition external {A} (r : string + A) : M A :=
  match r with
  | inl descr => raise (External descr)
  | inr a => ret a
  end.

(** ** The collaborators *)

(** The external collaborator contract.  Each field is the answer the
    surrounding system gives to one request; [project] makes each request
    at most once per call, apart from the pure [data_kind]. *)
Record Collaborators : Type := mkCollaborators {
  (** the name [GMTTempFile(suffix=...)] picks *)
  GMTTempFile : string -> string;
  (** the kind of the input, or the failure of the classifier *)
  data_kind : points_t -> string + string;
  (** the name of the virtual file staged from a matrix *)
  virtualfile_from_matrix : list (list scalar) -> string + string;
  (** the option string built from the keyword dictionary *)
  build_arg_string : gmap string pyval -> string;
  (** [None] when the module ran, [Some descr] when it failed *)
  call_module : string -> string -> option string;
  (** the rows [pandas.read_csv(path, sep, names)] parses *)
  read_csv : string -> string -> list scalar -> string + list (list scalar)
}.


(** Lines 19-33: the aliases [use_alias] translates. *)
Definition aliases : list (string * string) :=
  [("A", "azimuth"); ("E", "endpoint"); ("F", "flags"); ("G", "generate");
   ("L", "length"); ("N", "flatearth"); ("Q", "maptypeunits"); ("S", "sort");
   ("T", "rotationpole"); ("V", "verbose"); ("W", "width"); ("Z", "ellipse");
   ("f", "coltypes")].

(** ** The function *)

Definition DQ : string := String (ascii_of_nat 34) EmptyString.

(** [key in kwargs] *)
Definition has_key (key : string) (kwargs : gmap string pyval) : bool :=
  match kwargs !! key with
  | Some _ => true
  | None => false
  end.

(** [points.values] *)
Definition get_values (points : points_t) : result (list (list scalar)) :=
  match points with
  | PDataFrame df => Ok (values df)
  | _ => Raise (AttributeError
           ("'" +:+ type_name points +:+ "' object has no attribute 'values'"))
  end.

(** [points.columns.to_list()] *)
Definition get_columns (points : points_t) : result (list scalar) :=
  match points with
  | PDataFrame df => Ok (columns df)
  | _ => Raise (AttributeError
           ("'" +:+ type_name points +:+ "' object has no attribute 'columns'"))
  end.

(** ["->" + outfile] *)
Definition redirect (outfile : option string) : result string :=
  match outfile with
  | Some o => Ok ("->" +:+ o)
  | None => Raise (TypeError
      ("can only concatenate str (not " +:+ DQ +:+ "NoneType" +:+ DQ +:+ ") to str"))
  end.

(** The two context managers [table_context] can be bound to. *)
Inductive context : Type :=
| VirtualFile (matrix : list (list scalar))
| DummyContext (points : points_t).

Section Project.

Context (env : Collaborators).

(** Line 220: the name of the scoped temporary file. *)
Definition tmpfile_name : string := GMTTempFile env ".csv".

(** Lines 221-222. *)
Definition default_outfile (outfile : option string) : option string :=
  match outfile with
  | None => Some tmpfile_name
  | Some o => Some o
  end.

(** Lines 226-233: choosing [table_context]. *)
Definition choose_context (points : points_t) (outfile : option string)
  : M context :=
  do kind <- external (data_kind env points);
  if String.eqb kind "matrix" then
    do vals <- lift (get_values points);
    ret (VirtualFile vals)
  else
    do kind' <- external (data_kind env points);
    if String.eqb kind' "file" then
      match outfile with
      | None => raise (GMTInvalidInput "Please pass in a str to 'outfile'")
      | Some _ => ret (DummyContext points)
      end
    else
      raise (GMTInvalidInput ("Unrecognized data type " +:+ type_repr points)).

(** [with table_context as csvfile: body]. *)
Definition with_context {A} (ctx : context) (body : points_t -> M A) : M A :=
  match ctx with
  | VirtualFile matrix =>
      do vf <- external (virtualfile_from_matrix env matrix);
      with_block (VirtualFileOpen vf) (VirtualFileClose vf) (body (PStr vf))
  | DummyContext points => body points
  end.

(** [lib.call_module(module=..., args=...)] *)
Definition lib_call_module (module args : string) : M unit :=
  run emit (CallModule module args);
  match call_module env module args with
  | None => ret tt
  | Some descr => raise (External descr)
  end.

(** Lines 237-239: [" ".join([csvfile, build_arg_string(kwargs), "->" + outfile])]. *)
Definition table_arg_str (csvfile : points_t) (kwargs : gmap string pyval)
    (outfile : option string) : result string :=
  match redirect outfile with
  | Raise e => Raise e
  | Ok target =>
      match csvfile with
      | PStr name => Ok (join " " [name; build_arg_string env kwargs; target])
      | _ => Raise (TypeError
               ("sequence item 0: expected str instance, "
                +:+ type_name csvfile +:+ " found"))
      end
  end.

(** Line 242: [" ".join([build_arg_string(kwargs), "->" + outfile])]. *)
Definition generate_arg_str (kwargs : gmap string pyval)
    (outfile : option string) : result string :=
  match redirect outfile with
  | Raise e => Raise e
  | Ok target => Ok (join " " [build_arg_string env kwargs; target])
  end.

(** Lines 223-243: the [with Session() as lib] block. *)
Definition execute (points : points_t) (outfile : option string)
    (kwargs : gmap string pyval) : M unit :=
  with_block SessionCreate SessionDestroy
    (if negb (has_key "G" kwargs) then
       do table_context <- choose_context points outfile;
       with_context table_context (fun csvfile =>
         do arg_str <- lift (table_arg_str csvfile kwargs outfile);
         lib_call_module "project" arg_str)
     else
       do arg_str <- lift (generate_arg_str kwargs outfile);
       lib_call_module "project" arg_str).

(** Lines 252-255: the column spec before substitution. *)
Definition flag_spec (kwargs : gmap string pyval) : result (list scalar) :=
  match kwargs !! "F" with
  | Some v => PyList.of_pyval v
  | None => Ok (map SStr (chars "xyzpqrs"))
  end.

(** Lines 266-267: the loop inserting the extra columns at [i_z]. *)
Definition insert_all (column_names : list scalar) (i_z : nat)
    (cols : list scalar) : list scalar :=
  fold_left (fun acc col => PyList.insert acc i_z col) (rev cols) column_names.

(** Lines 258-267: the input's names take the place of x, y and z. *)
Definition substitute_columns (column_names : list scalar)
    (points : points_t) : M (list scalar) :=
  do i_x <- lift (PyList.index "x" column_names);
  do i_y <- lift (PyList.index "y" column_names);
  do i_z <- lift (PyList.index "z" column_names);
  do input_column_names <- lift (get_columns points);
  do c0 <- lift (PyList.getitem input_column_names 0);
  do column_names <- lift (PyList.setitem column_names i_x c0);
  do c1 <- lift (PyList.getitem input_column_names 1);
  do column_names <- lift (PyList.setitem column_names i_y c1);
  do column_names <- lift (PyList.pop column_names i_z);
  ret (insert_all column_names i_z (PyList.from2 input_column_names)).

(** Line 268: [pd.read_csv(tmpfile.name, sep="\t", names=column_names)]. *)
Definition pd_read_csv (path : string) (names : list scalar) : M DataFrame :=
  run emit (ReadCsv path names);
  do rows <- external (read_csv env path TAB names);
  ret (mkDataFrame names rows).

(** Lines 246-271: the result. *)
Definition shape_result (points : points_t) (outfile : option string)
    (kwargs : gmap string pyval) : M (option DataFrame) :=
  if bool_decide (outfile = Some tmpfile_name) then
    do column_names <-
      (if has_key "G" kwargs then ret (map SStr (chars "rsp"))
       else
         do column_names <- lift (flag_spec kwargs);
         substitute_columns column_names points);
    do result <- pd_read_csv tmpfile_name column_names;
    ret (Some result)
  else ret None.

(** Line 218: [kwargs["C"] = ...]. *)
Definition set_center (center : center_t) (kwargs : gmap string pyval)
  : gmap string pyval :=
  <["C" := Scalar (SStr (center_arg center))]> kwargs.

(** [project(points, center, outfile=None, **kwargs)], with [kwargs]
    keyed by the flag letters as the decorators leave it. *)
Definition project (points : points_t) (center : center_t)
    (outfile : option string) (kwargs : gmap string pyval)
  : M (option DataFrame) :=
  let kwargs := set_center center kwargs in
  with_block (TempCreate tmpfile_name) (TempRemove tmpfile_name)
    (let outfile := default_outfile outfile in
     run execute points outfile kwargs;
     shape_result points outfile kwargs).

End Project.

(** ** A concrete set of collaborators *)

(** Modelled from the spec: the collaborators of section 6 (a session that
    stages tables and invokes the module, a scoped temporary file, a
    delimited-text reader) and the classifier and argument builder of
    [pygmt.helpers], none of which is among the sources.  In-memory tables
    are of kind "matrix", paths of kind "file", grids of kind "grid"; every
    option becomes the token [-<flag><value>]; the module succeeds and the
    reader returns one row of zeros under the names it is given. *)
Module Sample.

Definition option_token (kv : string * pyval) : string :=
  match kv.2 with
  | Scalar v => "-" +:+ kv.1 +:+ py_format v
  | Seq items => join " " (map (fun v => "-" +:+ kv.1 +:+ py_format v) items)
  end.

Definition env : Collaborators := {|
  GMTTempFile := fun suffix => "/tmp/pygmt-k3v9x2qa" +:+ suffix;
  data_kind := fun points =>
    match points with
    | PDataFrame _ => inr "matrix"
    | PStr _ => inr "file"
    | PNone => inl "GMTInvalidInput: No input data provided."
    | PObject _ "DataArray" => inr "grid"
    | PObject _ _ => inr "matrix"
    end;
  virtualfile_from_matrix := fun _ => inr "@GMTAPI@-S-I-D-M-T-N-000000";
  build_arg_string := fun kwargs => join " " (map option_token (map_to_list kwargs));
  call_module := fun _ _ => None;
  read_csv := fun _ _ names => inr [map (fun _ => SFloat "0.0") names]
|}.

Definition df2 : DataFrame :=
  mkDataFrame [SStr "lon"; SStr "lat"]
              [[SFloat "1.0"; SFloat "2.0"]].

Definition df1 : DataFrame :=
  mkDataFrame [SStr "lon"] [[SFloat "1.0"]].

Definition df3 : DataFrame :=
  mkDataFrame [SStr "lon"; SStr "lat"; SStr "depth"]
              [[SFloat "1.0"; SFloat "2.0"; SFloat "3.0"]].

Definition df5 : DataFrame :=
  mkDataFrame [SStr "lon"; SStr "lat"; SStr "depth"; SStr "temp"; SStr "name"]
              [[SFloat "1.0"; SFloat "2.0"; SFloat "3.0"; SFloat "4.0"; SStr "a"]].

Definition origin : center_t := CSeq [SInt 0; SInt 0].

(** The same collaborators with a module that fails. *)
Definition failing : Collaborators := {|
  GMTTempFile := GMTTempFile env;
  data_kind := data_kind env;
  virtualfile_from_matrix := virtualfile_from_matrix env;
  build_arg_string := build_arg_string env;
  call_module := fun _ _ =>
    Some "GMTCLibError: Module 'project' failed with status code 71";
  read_csv := read_csv env
|}.

End Sample.


(** ** Predicates on runs *)

(** [raises_only P m]: whatever [m] raises satisfies [P]. *)
Definition raises_only {A} (P : exn -> Prop) (m : M A) : Prop :=
  forall e, m.1 = Raise e -> P e.

(** The message of the guard of line 230. *)
Definition outfile_message : string := "Please pass in a str to 'outfile'".


(** The body of the [with table_context as csvfile] block. *)
Definition table_body (env : Collaborators) (kw : gmap string pyval)
    (outfile : option string) (csvfile : points_t) : M unit :=
  do arg_str <- lift (table_arg_str env csvfile kw outfile);
  lib_call_module env "project" arg_str.

(** The z-expansion in the specification's words (section 4.3): the
    positions of "x" and "y" take the first two input names, and the
    position of "z" is replaced in place by the remaining input names in
    their order, which shifts what follows.  To be compared with
    [substitute_columns], the translation of lines 258-267. *)
Definition z_expansion (spec : list scalar) (i_x i_y i_z : nat)
    (cols : list scalar) : list scalar :=
  match cols with
  | c0 :: c1 :: extra =>
      let named := <[i_y:=c1]> (<[i_x:=c0]> spec) in
      take i_z named ++ extra ++ drop (S i_z) named
  | _ => []
  end.

(** What [lib.call_module] answers: it returns, or the failure of the
    module passes through. *)
Definition call_result (env : Collaborators) (module args : string)
    : result unit :=
  match call_module env module args with
  | None => Ok tt
  | Some descr => Raise (External descr)
  end.

(** The runs of the [with Session() as lib] block of lines 223-243 when
    [outfile] is a string: the outcome of the block and what the session
    was asked to do between its creation and its destruction. *)
Inductive session_run (env : Collaborators) : result unit -> list event -> Prop :=
| run_rejected (e : exn) :
    session_run env (Raise e) []
| run_direct (args : string) :
    session_run env (call_result env "project" args)
      [CallModule "project" args]
| run_staged (vf args : string) :
    session_run env (call_result env "project" args)
      [VirtualFileOpen vf; CallModule "project" args; VirtualFileClose vf].

(** The names [p], [q], [r], [s] that follow the input's columns under
    the default flags. *)
Definition projected_names : list scalar := map SStr (chars "pqrs").

(** ** The function behind its converter *)





(** ** Reasoning about computations *)

Lemma bind_Ok {A B} (a : A) (t : list event) (k : A -> M B) :
  bind (Ok a, t) k = ((k a).1, t ++ (k a).2).
Proof. unfold bind. by destruct (k a). Qed.

Lemma bind_Raise {A B} (e : exn) (t : list event) (k : A -> M B) :
  bind (Raise e, t) k = (Raise e, t).
Proof. reflexivity. Qed.

Lemma bind_lift_Ok {A B} (a : A) (k : A -> M B) : bind (lift (Ok a)) k = k a.
Proof. unfold lift. rewrite bind_Ok. by destruct (k a). Qed.

Lemma bind_ret {A B} (a : A) (k : A -> M B) : bind (ret a) k = k a.
Proof. apply bind_lift_Ok. Qed.

Lemma fst_bind {A B} (m : M A) (k : A -> M B) :
  (bind m k).1 = match m.1 with Ok a => (k a).1 | Raise e => Raise e end.
Proof. destruct m as [[a|e] t]; [rewrite bind_Ok|]; reflexivity. Qed.

Lemma fst_with_block {A} (enter leave : event) (m : M A) :
  (with_block enter leave m).1 = m.1.
Proof. unfold with_block. by destruct m. Qed.

Lemma snd_with_block {A} (enter leave : event) (m : M A) :
  (with_block enter leave m).2 = enter :: m.2 ++ [leave].
Proof. unfold with_block. by destruct m. Qed.

Lemma with_block_pair {A} (enter leave : event) (r : result A) (t : list event) :
  with_block enter leave (r, t) = (r, enter :: t ++ [leave]).
Proof. reflexivity. Qed.

Lemma raises_only_bind {A B} (P : exn -> Prop) (m : M A) (k : A -> M B) :
  raises_only P m -> (forall a, raises_only P (k a)) -> raises_only P (bind m k).
Proof.
  intros Hm Hk e. rewrite fst_bind.
  destruct m.1 as [a|e'] eqn:E.
  - apply Hk.
  - intros [= ->]. by apply Hm.
Qed.

Lemma raises_only_with_block {A} (P : exn -> Prop) (enter leave : event) (m : M A) :
  raises_only P m -> raises_only P (with_block enter leave m).
Proof. intros Hm e. rewrite fst_with_block. apply Hm. Qed.

Lemma raises_only_ret {A} (P : exn -> Prop) (a : A) : raises_only P (ret a).
Proof. intros e. discriminate. Qed.

Lemma raises_only_emit (P : exn -> Prop) (ev : event) : raises_only P (emit ev).
Proof. intros e. discriminate. Qed.

Lemma raises_only_raise {A} (P : exn -> Prop) (e : exn) :
  P e -> raises_only P (@raise A e).
Proof. intros H e'. by intros [= <-]. Qed.

Lemma raises_only_external {A} (P : exn -> Prop) (r : string + A) :
  (forall d, P (External d)) -> raises_only P (external r).
Proof. intros H. destruct r; [by apply raises_only_raise | apply raises_only_ret]. Qed.

Lemma raises_only_lift {A} (P : exn -> Prop) (r : result A) :
  (forall e, r = Raise e -> P e) -> raises_only P (lift r).
Proof. intros H e. simpl. apply H. Qed.

(** ** Dictionary lookups after line 218 *)

Lemma has_key_set_center (key : string) center (kwargs : gmap string pyval) :
  key <> "C" -> has_key key (set_center center kwargs) = has_key key kwargs.
Proof.
  intros Hne. unfold has_key, set_center.
  by rewrite lookup_insert_ne.
Qed.

Lemma has_key_None (key : string) (kwargs : gmap string pyval) :
  kwargs !! key = None -> has_key key kwargs = false.
Proof. unfold has_key. by intros ->. Qed.

Lemma has_key_Some (key : string) (kwargs : gmap string pyval) v :
  kwargs !! key = Some v -> has_key key kwargs = true.
Proof. unfold has_key. by intros ->. Qed.

Lemma flag_spec_set_center center (kwargs : gmap string pyval) :
  flag_spec (set_center center kwargs) = flag_spec kwargs.
Proof. unfold flag_spec, set_center. by rewrite lookup_insert_ne. Qed.

(** ** The dead guard of line 229 *)

Lemma unrecognized_is_not_outfile_message (s : string) :
  GMTInvalidInput ("Unrecognized data type " +:+ s) <> GMTInvalidInput outfile_message.
Proof. unfold outfile_message. cbv [String.append]. discriminate. Qed.

Lemma choose_context_guard env points o :
  raises_only (fun e => e <> GMTInvalidInput outfile_message)
              (choose_context env points (Some o)).
Proof.
  unfold choose_context.
  apply raises_only_bind; [by apply raises_only_external|]. intros kind.
  destruct (String.eqb kind "matrix").
  - apply raises_only_bind; [|intros; apply raises_only_ret].
    apply raises_only_lift. unfold get_values. intros e.
    destruct points; congruence.
  - apply raises_only_bind; [by apply raises_only_external|]. intros kind'.
    destruct (String.eqb kind' "file"); [apply raises_only_ret|].
    apply raises_only_raise. apply unrecognized_is_not_outfile_message.
Qed.

Lemma lib_call_module_guard env module args :
  raises_only (fun e => e <> GMTInvalidInput outfile_message)
              (lib_call_module env module args).
Proof.
  unfold lib_call_module.
  apply raises_only_bind; [apply raises_only_emit|]. intros _.
  destruct (call_module env module args); [by apply raises_only_raise | apply raises_only_ret].
Qed.

Lemma execute_guard env points o kwargs :
  raises_only (fun e => e <> GMTInvalidInput outfile_message)
              (execute env points (Some o) kwargs).
Proof.
  unfold execute. apply raises_only_with_block.
  destruct (negb (has_key "G" kwargs)).
  - apply raises_only_bind; [apply choose_context_guard|]. intros ctx.
    unfold with_context. destruct ctx as [matrix|csvfile].
    + apply raises_only_bind; [by apply raises_only_external|]. intros vf.
      apply raises_only_with_block.
      apply raises_only_bind; [|intros; apply lib_call_module_guard].
      by apply raises_only_lift.
    + apply raises_only_bind; [|intros; apply lib_call_module_guard].
      apply raises_only_lift. unfold table_arg_str. simpl.
      destruct csvfile; congruence.
  - apply raises_only_bind; [|intros; apply lib_call_module_guard].
    by apply raises_only_lift.
Qed.

Lemma substitute_columns_guard column_names points :
  raises_only (fun e => e <> GMTInvalidInput outfile_message)
              (substitute_columns column_names points).
Proof.
  unfold substitute_columns.
  repeat (apply raises_only_bind; [|intros ?]);
    try apply raises_only_ret; apply raises_only_lift; intros e.
  - unfold PyList.index. destruct (PyList.find_str _ _); congruence.
  - unfold PyList.index. destruct (PyList.find_str _ _); congruence.
  - unfold PyList.index. destruct (PyList.find_str _ _); congruence.
  - unfold get_columns. destruct points; congruence.
  - unfold PyList.getitem. destruct (_ !! _); congruence.
  - unfold PyList.setitem. case_decide; congruence.
  - unfold PyList.getitem. destruct (_ !! _); congruence.
  - unfold PyList.setitem. case_decide; congruence.
  - unfold PyList.pop. case_decide; congruence.
Qed.

Lemma shape_result_guard env points outfile kwargs :
  raises_only (fun e => e <> GMTInvalidInput outfile_message)
              (shape_result env points outfile kwargs).
Proof.
  unfold shape_result. case_bool_decide; [|apply raises_only_ret].
  apply raises_only_bind.
  - destruct (has_key "G" kwargs); [apply raises_only_ret|].
    apply raises_only_bind; [|intros; apply substitute_columns_guard].
    apply raises_only_lift. intros e. unfold flag_spec.
    destruct (kwargs !! "F") as [[[]|]|]; simpl; congruence.
  - intros names. apply raises_only_bind; [|intros; apply raises_only_ret].
    unfold pd_read_csv.
    apply raises_only_bind; [apply raises_only_emit|]. intros _.
    apply raises_only_bind; [by apply raises_only_external|].
    intros; apply raises_only_ret.
Qed.

(** C9: the guard [if outfile is None] of line 229 is dead.  Line 222 has
    replaced a missing [outfile] by the temporary file's name before the
    guard is reached, so for no input, no options and no behaviour of the
    collaborators does [project] raise
    [GMTInvalidInput("Please pass in a str to 'outfile'")]. *)
Theorem outfile_guard_unreachable env points center outfile kwargs :
  (exists o, default_outfile env outfile = Some o) /\
  (project env points center outfile kwargs).1
    <> Raise (GMTInvalidInput "Please pass in a str to 'outfile'").
Proof.
  split; [destruct outfile; simpl; eauto|].
  intros H. revert H.
  assert (raises_only (fun e => e <> GMTInvalidInput outfile_message)
            (project env points center outfile kwargs)) as Hsafe.
  { unfold project. apply raises_only_with_block.
    destruct outfile as [o|]; simpl;
      (apply raises_only_bind; [apply execute_guard|intros; apply shape_result_guard]). }
  intros H. by apply Hsafe in H.
Qed.

(** ** Rejected inputs *)

Lemma choose_context_unrecognized env points outfile kind :
  data_kind env points = inr kind ->
  kind <> "matrix" -> kind <> "file" ->
  choose_context env points outfile =
    raise (GMTInvalidInput ("Unrecognized data type " +:+ type_repr points)).
Proof.
  intros Hkind Hm Hf. unfold choose_context.
  rewrite Hkind. unfold external. rewrite !bind_ret.
  apply String.eqb_neq in Hm, Hf. rewrite Hm, Hf. reflexivity.
Qed.

(** C8: without [generate], an input whose kind is neither "matrix" nor
    "file" makes [project] raise [GMTInvalidInput]; the trace shows that
    the module was never invoked and nothing was read back, and that the
    session and the temporary file were released. *)
Theorem unrecognized_input_is_rejected env points center outfile kwargs kind :
  kwargs !! "G" = None ->
  data_kind env points = inr kind ->
  kind <> "matrix" ->
  kind <> "file" ->
  project env points center outfile kwargs =
    (Raise (GMTInvalidInput ("Unrecognized data type " +:+ type_repr points)),
     [TempCreate (tmpfile_name env); SessionCreate; SessionDestroy;
      TempRemove (tmpfile_name env)]).
Proof.
  intros HG Hkind Hm Hf. unfold project, execute.
  rewrite has_key_set_center by done. rewrite (has_key_None _ _ HG). simpl negb. cbv iota.
  rewrite (choose_context_unrecognized _ _ _ _ Hkind Hm Hf).
  reflexivity.
Qed.

Lemma unrecognized_input_is_rejected_witness :
  project Sample.env (PObject "xarray.core.dataarray.DataArray" "DataArray")
          Sample.origin None ∅ =
    (Raise (GMTInvalidInput
       "Unrecognized data type <class 'xarray.core.dataarray.DataArray'>"),
     [TempCreate "/tmp/pygmt-k3v9x2qa.csv"; SessionCreate; SessionDestroy;
      TempRemove "/tmp/pygmt-k3v9x2qa.csv"]).
Proof.
  apply (unrecognized_input_is_rejected Sample.env
           (PObject "xarray.core.dataarray.DataArray" "DataArray")
           Sample.origin None ∅ "grid").
  - reflexivity.
  - reflexivity.
  - discriminate.
  - discriminate.
Defined.

(** ** The center token *)

Lemma append_assoc (a b c : string) : (a +:+ b) +:+ c = a +:+ (b +:+ c).
Proof.
  induction a as [|ch a IH]; [reflexivity|].
  change (String ch ((a +:+ b) +:+ c) = String ch (a +:+ (b +:+ c))).
  by rewrite IH.
Qed.

Lemma format_strings (l : list string) : map py_format (map SStr l) = l.
Proof. induction l as [|s l IH]; [reflexivity|]. cbn [map py_format]. by rewrite IH. Qed.

Lemma center_arg_string_cons (c : ascii) (s : string) :
  center_arg (CStr (String c s)) =
    String c (match s with
              | EmptyString => EmptyString
              | String _ _ => String "/" (center_arg (CStr s))
              end).
Proof.
  unfold center_arg, center_items, join. rewrite !format_strings.
  destruct s as [|c' s]; reflexivity.
Qed.

Lemma center_arg_string_length (c : ascii) (s : string) :
  String.length (center_arg (CStr (String c s))) = S (2 * String.length s).
Proof.
  revert c. induction s as [|c' s IH]; intros c; rewrite center_arg_string_cons.
  - reflexivity.
  - cbn [String.length]. rewrite IH. lia.
Qed.

(** C10: a [center] given as a string is iterated character by character:
    "10/20" becomes "1/0///2/0", and no string of two or more characters
    is passed on unchanged; a list of two elements [cx, cy] becomes
    "cx/cy".  The value is what line 218 stores under "C". *)
Theorem string_center_is_split_by_character :
  center_arg (CStr "10/20") = "1/0///2/0" /\
  center_arg (CStr "10/20") <> "10/20" /\
  (forall s : string, 2 <= String.length s -> center_arg (CStr s) <> s) /\
  (forall cx cy : scalar,
     center_arg (CSeq [cx; cy]) = py_format cx +:+ "/" +:+ py_format cy) /\
  (forall kwargs : gmap string pyval,
     set_center (CStr "10/20") kwargs !! "C" = Some (Scalar (SStr "1/0///2/0"))) /\
  (forall kwargs : gmap string pyval,
     set_center (CSeq [SInt 10; SInt 20]) kwargs !! "C" = Some (Scalar (SStr "10/20"))).
Proof.
  split; [reflexivity|]. split; [by vm_compute|].
  split; [|split; [|split]].
  - intros [|c s] Hlen; [simpl in Hlen; lia|].
    intros Heq. apply (f_equal String.length) in Heq.
    rewrite center_arg_string_length in Heq. cbn [String.length] in *. lia.
  - intros cx cy. reflexivity.
  - intros kwargs. unfold set_center. by rewrite lookup_insert_eq.
  - intros kwargs. unfold set_center. by rewrite lookup_insert_eq.
Qed.

Lemma string_center_is_split_by_character_witness :
  center_arg (CStr "0/90") <> "0/90".
Proof.
  apply (proj1 (proj2 (proj2 string_center_is_split_by_character)) "0/90").
  simpl. lia.
Defined.

(** ** Where the argument string comes from *)












(** ** Generate mode *)

Lemma execute_generate env points outfile kw g :
  kw !! "G" = Some g ->
  execute env points outfile kw =
    with_block SessionCreate SessionDestroy
      (do arg_str <- lift (generate_arg_str env kw outfile);
       lib_call_module env "project" arg_str).
Proof. intros HG. unfold execute. by rewrite (has_key_Some _ _ _ HG). Qed.

Lemma shape_result_generate env points kw g :
  kw !! "G" = Some g ->
  shape_result env points (Some (tmpfile_name env)) kw =
    (do result <- pd_read_csv env (tmpfile_name env) (map SStr (chars "rsp"));
     ret (Some result)).
Proof.
  intros HG. unfold shape_result.
  rewrite bool_decide_eq_true_2 by done.
  rewrite (has_key_Some _ _ _ HG). by rewrite bind_ret.
Qed.

Lemma set_center_other (key : string) center (kwargs : gmap string pyval) :
  key <> "C" -> set_center center kwargs !! key = kwargs !! key.
Proof. intros Hne. unfold set_center. by rewrite lookup_insert_ne. Qed.

(** C4: with the generate option set and no [outfile], the outcome of
    [project] is the same for any two values of [points] (the argument is
    never consulted), and when the module and the reader succeed the
    table returned has exactly the three columns "r", "s", "p". *)
Theorem generate_ignores_points env center kwargs g rows :
  kwargs !! "G" = Some g ->
  call_module env "project"
    (join " " [build_arg_string env (set_center center kwargs);
               "->" +:+ tmpfile_name env]) = None ->
  read_csv env (tmpfile_name env) TAB [SStr "r"; SStr "s"; SStr "p"] = inr rows ->
  (forall p1 p2,
     project env p1 center None kwargs = project env p2 center None kwargs) /\
  (forall points,
     project env points center None kwargs =
       (Ok (Some (mkDataFrame [SStr "r"; SStr "s"; SStr "p"] rows)),
        [TempCreate (tmpfile_name env); SessionCreate;
         CallModule "project"
           (join " " [build_arg_string env (set_center center kwargs);
                      "->" +:+ tmpfile_name env]);
         SessionDestroy;
         ReadCsv (tmpfile_name env) [SStr "r"; SStr "s"; SStr "p"];
         TempRemove (tmpfile_name env)])) /\
  length [SStr "r"; SStr "s"; SStr "p"] = 3.
Proof.
  intros HG Hcall Hread.
  assert (set_center center kwargs !! "G" = Some g) as HG'
    by (by rewrite set_center_other).
  assert (forall points, project env points center None kwargs =
            with_block (TempCreate (tmpfile_name env)) (TempRemove (tmpfile_name env))
              (run (with_block SessionCreate SessionDestroy
                      (do arg_str <- lift (generate_arg_str env (set_center center kwargs)
                                             (Some (tmpfile_name env)));
                       lib_call_module env "project" arg_str));
               do result <- pd_read_csv env (tmpfile_name env) (map SStr (chars "rsp"));
               ret (Some result))) as Hshape.
  { intros points. unfold project. cbn [default_outfile].
    rewrite (execute_generate _ _ _ _ _ HG').
    by rewrite (shape_result_generate _ _ _ _ HG'). }
  split; [|split; [|reflexivity]].
  - intros p1 p2. by rewrite !Hshape.
  - intros points. rewrite Hshape.
    unfold generate_arg_str, redirect. rewrite bind_lift_Ok.
    unfold lib_call_module, pd_read_csv. rewrite Hcall.
    change (map SStr (chars "rsp")) with [SStr "r"; SStr "s"; SStr "p"].
    rewrite Hread. reflexivity.
Qed.

Lemma generate_ignores_points_witness :
  project Sample.env PNone Sample.origin None {["G" := Scalar (SInt 5)]} =
  project Sample.env (PDataFrame Sample.df5) Sample.origin None
          {["G" := Scalar (SInt 5)]}.
Proof.
  refine (proj1 (generate_ignores_points Sample.env Sample.origin
                   {["G" := Scalar (SInt 5)]} (Scalar (SInt 5))
                   [[SFloat "0.0"; SFloat "0.0"; SFloat "0.0"]] _ _ _) _ _).
  - vm_compute. reflexivity.
  - reflexivity.
  - reflexivity.
Defined.

(** ** A file as input *)

Lemma choose_context_file env path outfile :
  data_kind env (PStr path) = inr "file" ->
  choose_context env (PStr path) outfile =
    match outfile with
    | None => raise (GMTInvalidInput "Please pass in a str to 'outfile'")
    | Some _ => ret (DummyContext (PStr path))
    end.
Proof.
  intros Hkind. unfold choose_context. rewrite Hkind.
  unfold external. rewrite !bind_ret. reflexivity.
Qed.

(** C2 (what the code does): a file path with no [outfile] is not
    rejected.  Line 222 has already put the temporary file's name in
    [outfile], so the module is invoked on the path, and the call only
    fails afterwards, at line 261, with an [AttributeError] on
    [points.columns]. *)
Theorem file_without_outfile_invokes_module env path center kwargs :
  kwargs !! "G" = None ->
  kwargs !! "F" = None ->
  data_kind env (PStr path) = inr "file" ->
  call_module env "project"
    (join " " [path; build_arg_string env (set_center center kwargs);
               "->" +:+ tmpfile_name env]) = None ->
  project env (PStr path) center None kwargs =
    (Raise (AttributeError "'str' object has no attribute 'columns'"),
     [TempCreate (tmpfile_name env); SessionCreate;
      CallModule "project"
        (join " " [path; build_arg_string env (set_center center kwargs);
                   "->" +:+ tmpfile_name env]);
      SessionDestroy; TempRemove (tmpfile_name env)]).
Proof.
  intros HG HF Hkind Hcall. unfold project, execute, shape_result.
  rewrite has_key_set_center by done. rewrite (has_key_None _ _ HG).
  cbn [negb default_outfile].
  rewrite (choose_context_file _ _ _ Hkind), bind_ret.
  unfold with_context, table_arg_str, redirect. rewrite bind_lift_Ok.
  unfold lib_call_module. rewrite Hcall.
  rewrite bool_decide_eq_true_2 by done.
  rewrite flag_spec_set_center. unfold flag_spec. rewrite HF.
  reflexivity.
Qed.

Lemma file_without_outfile_invokes_module_witness :
  project Sample.env (PStr "data.txt") Sample.origin None ∅ =
    (Raise (AttributeError "'str' object has no attribute 'columns'"),
     [TempCreate "/tmp/pygmt-k3v9x2qa.csv"; SessionCreate;
      CallModule "project" "data.txt -C0/0 ->/tmp/pygmt-k3v9x2qa.csv";
      SessionDestroy; TempRemove "/tmp/pygmt-k3v9x2qa.csv"]).
Proof.
  refine (file_without_outfile_invokes_module Sample.env "data.txt"
            Sample.origin ∅ _ _ _ _).
  - reflexivity.
  - reflexivity.
  - reflexivity.
  - reflexivity.
Defined.

(** ** An explicit output file *)

Lemma shape_result_explicit env points o kw :
  o <> tmpfile_name env ->
  shape_result env points (Some o) kw = ret None.
Proof.
  intros Hne. unfold shape_result.
  rewrite bool_decide_eq_false_2; [reflexivity|]. by intros [= ->].
Qed.

Lemma lib_call_module_trace env module args :
  CallModule module args ∈ (lib_call_module env module args).2.
Proof.
  unfold lib_call_module.
  destruct (call_module env module args); apply list_elem_of_here.
Qed.

Lemma elem_of_with_block {A} (ev enter leave : event) (m : M A) :
  ev ∈ m.2 -> ev ∈ (with_block enter leave m).2.
Proof.
  intros Hin. rewrite snd_with_block.
  apply list_elem_of_further, elem_of_app. by left.
Qed.

Lemma elem_of_bind_r {A B} (ev : event) (a : A) (t : list event) (k : A -> M B) :
  ev ∈ (k a).2 -> ev ∈ (bind (Ok a, t) k).2.
Proof. intros Hin. rewrite bind_Ok. apply elem_of_app. by right. Qed.

Lemma elem_of_bind_l {A B} (ev : event) (m : M A) (k : A -> M B) :
  ev ∈ m.2 -> ev ∈ (bind m k).2.
Proof.
  intros Hin. destruct m as [[a|e] t]; [|done].
  rewrite bind_Ok. apply elem_of_app. by left.
Qed.

Lemma table_body_invokes env kw o csvfile :
  (table_body env kw (Some o) csvfile).1 = Ok tt ->
  exists pre, CallModule "project" (pre +:+ "->" +:+ o)
                ∈ (table_body env kw (Some o) csvfile).2.
Proof.
  unfold table_body, table_arg_str, redirect.
  destruct csvfile as [| name | |]; try discriminate.
  rewrite bind_lift_Ok. intros _.
  exists (name +:+ " " +:+ build_arg_string env kw +:+ " ").
  unfold join. cbn [String.concat]. rewrite !append_assoc.
  apply lib_call_module_trace.
Qed.

Lemma with_context_invokes env kw o ctx :
  (with_context env ctx (table_body env kw (Some o))).1 = Ok tt ->
  exists pre, CallModule "project" (pre +:+ "->" +:+ o)
                ∈ (with_context env ctx (table_body env kw (Some o))).2.
Proof.
  destruct ctx as [matrix|csvfile]; unfold with_context.
  - destruct (virtualfile_from_matrix env matrix) as [d|vf]; [discriminate|].
    unfold external. rewrite bind_ret, fst_with_block. intros Hok.
    destruct (table_body_invokes _ _ _ _ Hok) as [pre Hin]. exists pre.
    by apply elem_of_with_block.
  - apply table_body_invokes.
Qed.

(** When the [with Session()] block completes, the module has been asked
    to write to [outfile]. *)
Lemma execute_invokes env points o kw :
  (execute env points (Some o) kw).1 = Ok tt ->
  exists pre, CallModule "project" (pre +:+ "->" +:+ o) ∈ (execute env points (Some o) kw).2.
Proof.
  unfold execute. rewrite fst_with_block.
  destruct (negb (has_key "G" kw)).
  - fold (table_body env kw (Some o)).
    destruct (choose_context env points (Some o)) as [[ctx|e] t] eqn:Hctx;
      [|discriminate].
    rewrite fst_bind. cbn [fst]. intros Hok.
    destruct (with_context_invokes _ _ _ _ Hok) as [pre Hin]. exists pre.
    by apply elem_of_with_block, elem_of_bind_r.
  - unfold generate_arg_str, redirect. rewrite bind_lift_Ok. intros _.
    exists (build_arg_string env kw +:+ " ").
    unfold join. cbn [String.concat]. rewrite append_assoc.
    apply elem_of_with_block, lib_call_module_trace.
Qed.

(** C5: with an explicit [outfile] (a name other than the one the scoped
    temporary file was given), [project] never returns a table; and
    whenever the [with Session()] block completes, it returns [None]
    after the module has been invoked with its output redirected to
    [outfile]. *)
Theorem explicit_outfile_returns_None env points center o kwargs :
  o <> tmpfile_name env ->
  (forall df, (project env points center (Some o) kwargs).1 <> Ok (Some df)) /\
  ((execute env points (Some o) (set_center center kwargs)).1 = Ok tt ->
   (project env points center (Some o) kwargs).1 = Ok None /\
   exists pre,
     CallModule "project" (pre +:+ "->" +:+ o)
       ∈ (project env points center (Some o) kwargs).2).
Proof.
  intros Hne.
  assert (project env points center (Some o) kwargs =
            with_block (TempCreate (tmpfile_name env)) (TempRemove (tmpfile_name env))
              (run execute env points (Some o) (set_center center kwargs);
               ret None)) as Hshape.
  { unfold project. cbn [default_outfile].
    by rewrite (shape_result_explicit _ _ _ _ Hne). }
  rewrite Hshape, fst_with_block, fst_bind. split.
  - intros df. destruct (execute _ _ _ _).1; discriminate.
  - intros Hok. rewrite Hok. split; [reflexivity|].
    destruct (execute_invokes _ _ _ _ Hok) as [pre Hin]. exists pre.
    by apply elem_of_with_block, elem_of_bind_l.
Qed.

Lemma explicit_outfile_returns_None_witness :
  (project Sample.env (PDataFrame Sample.df3) Sample.origin
           (Some "track.txt") ∅).1 = Ok None /\
  exists pre,
    CallModule "project" (pre +:+ "->" +:+ "track.txt")
      ∈ (project Sample.env (PDataFrame Sample.df3) Sample.origin
                 (Some "track.txt") ∅).2.
Proof.
  refine (proj2 (explicit_outfile_returns_None Sample.env (PDataFrame Sample.df3)
                   Sample.origin "track.txt" ∅ _) _).
  - discriminate.
  - reflexivity.
Defined.

(** ** The center in the argument string *)



(** ** Column substitution *)

Lemma find_str_lt (x : string) (l : list scalar) (i : nat) :
  PyList.find_str x l = Some i -> i < length l.
Proof.
  revert i. induction l as [|item l IH]; intros i; simpl; [discriminate|].
  destruct (PyList.eq_str x item).
  - intros [= <-]. lia.
  - destruct (PyList.find_str x l) as [j|]; [|discriminate].
    intros [= <-]. specialize (IH j eq_refl). lia.
Qed.

Lemma insert_all_splice (l extra : list scalar) (i : nat) :
  i <= length l ->
  insert_all l i extra = take i l ++ extra ++ drop i l.
Proof.
  intros Hi. unfold insert_all.
  induction extra as [|c extra IH]; simpl.
  - by rewrite take_drop.
  - rewrite fold_left_app, IH. simpl. unfold PyList.insert.
    rewrite take_app_length' by (rewrite length_take; lia).
    rewrite drop_app_length' by (rewrite length_take; lia).
    reflexivity.
Qed.

Lemma substitute_columns_expands spec df i_x i_y i_z :
  PyList.find_str "x" spec = Some i_x ->
  PyList.find_str "y" spec = Some i_y ->
  PyList.find_str "z" spec = Some i_z ->
  2 <= length (columns df) ->
  substitute_columns spec (PDataFrame df) =
    ret (z_expansion spec i_x i_y i_z (columns df)).
Proof.
  intros Hx Hy Hz Hlen. unfold substitute_columns, PyList.index.
  rewrite Hx, Hy, Hz. rewrite !bind_lift_Ok.
  cbn [get_columns]. rewrite bind_lift_Ok.
  destruct (columns df) as [|c0 [|c1 extra]]; [simpl in Hlen; lia..|].
  apply find_str_lt in Hx, Hy, Hz.
  unfold PyList.getitem. cbn [lookup list_lookup]. rewrite bind_lift_Ok.
  unfold PyList.setitem. rewrite decide_True by done. rewrite !bind_lift_Ok.
  rewrite decide_True by (by rewrite length_insert). rewrite bind_lift_Ok.
  unfold PyList.pop. rewrite decide_True by (by rewrite !length_insert).
  rewrite bind_lift_Ok. unfold z_expansion, PyList.from2. cbn [drop].
  rewrite delete_take_drop.
  rewrite insert_all_splice
    by (rewrite length_app, length_take, length_drop, !length_insert; lia).
  rewrite take_app_length' by (rewrite length_take, !length_insert; lia).
  rewrite drop_app_length' by (rewrite length_take, !length_insert; lia).
  reflexivity.
Qed.

Lemma substitute_columns_missing spec points :
  PyList.find_str "x" spec = None \/ PyList.find_str "y" spec = None
    \/ PyList.find_str "z" spec = None ->
  exists c : string,
    c ∈ ["x"; "y"; "z"] /\ PyList.find_str c spec = None /\
    substitute_columns spec points =
      raise (ValueError ("'" +:+ c +:+ "' is not in list")).
Proof.
  intros Hmiss. unfold substitute_columns, PyList.index.
  destruct (PyList.find_str "x" spec) as [i_x|] eqn:Hx.
  - rewrite bind_lift_Ok.
    destruct (PyList.find_str "y" spec) as [i_y|] eqn:Hy.
    + rewrite bind_lift_Ok.
      destruct (PyList.find_str "z" spec) as [i_z|] eqn:Hz.
      * destruct Hmiss as [?|[?|?]]; discriminate.
      * exists "z". split; [rewrite !elem_of_cons; tauto|]. by split.
    + exists "y". split; [rewrite !elem_of_cons; tauto|]. by split.
  - exists "x". split; [rewrite !elem_of_cons; tauto|]. by split.
Qed.

Lemma find_str_None (x : string) (l : list string) :
  PyList.find_str x (map SStr l) = None <-> x ∉ l.
Proof.
  induction l as [|a l IH]; simpl.
  - split; [intros _; apply not_elem_of_nil|done].
  - rewrite not_elem_of_cons. destruct (String.eqb x a) eqn:E.
    + apply String.eqb_eq in E. split; [discriminate|]. intros [? _]. done.
    + apply String.eqb_neq in E.
      destruct (PyList.find_str x (map SStr l)) as [i|].
      * split; [discriminate|]. intros [_ Hn]. by apply IH in Hn.
      * split; [|done]. intros _. split; [done|]. by apply IH.
Qed.

(** With no [outfile] and no "G", [project] is the [with Session()] block
    followed by the column substitution and the read. *)
Lemma project_table_default env points center kwargs :
  kwargs !! "G" = None ->
  project env points center None kwargs =
    with_block (TempCreate (tmpfile_name env)) (TempRemove (tmpfile_name env))
      (run execute env points (Some (tmpfile_name env)) (set_center center kwargs);
       do column_names <-
         (do column_names <- lift (flag_spec kwargs);
          substitute_columns column_names points);
       do result <- pd_read_csv env (tmpfile_name env) column_names;
       ret (Some result)).
Proof.
  intros HG. unfold project, shape_result. cbn [default_outfile].
  rewrite bool_decide_eq_true_2 by done.
  rewrite has_key_set_center by done. rewrite (has_key_None _ _ HG).
  by rewrite flag_spec_set_center.
Qed.

(** ** A column spec without a placeholder *)

(** C6: without "G" and without [outfile], when the flags string lacks
    "x", "y" or "z", [project] never returns; and once the
    [with Session()] block has completed, it ends at lines 258-260 with the
    [ValueError] of [list.index] for a missing letter, before anything is
    read back. *)
Theorem missing_placeholder_fails env points center kwargs flags :
  kwargs !! "G" = None ->
  kwargs !! "F" = Some (Scalar (SStr flags)) ->
  "x" ∉ chars flags \/ "y" ∉ chars flags \/ "z" ∉ chars flags ->
  (forall r, (project env points center None kwargs).1 <> Ok r) /\
  ((execute env points (Some (tmpfile_name env)) (set_center center kwargs)).1
     = Ok tt ->
   exists c : string,
     c ∈ ["x"; "y"; "z"] /\ (c ∉ chars flags) /\
     project env points center None kwargs =
       (Raise (ValueError ("'" +:+ c +:+ "' is not in list")),
        TempCreate (tmpfile_name env)
          :: (execute env points (Some (tmpfile_name env))
                (set_center center kwargs)).2
          ++ [TempRemove (tmpfile_name env)])).
Proof.
  intros HG HF Hmiss.
  rewrite (project_table_default _ _ _ _ HG).
  unfold flag_spec. rewrite HF. cbn [PyList.of_pyval]. rewrite bind_lift_Ok.
  destruct (substitute_columns_missing (map SStr (chars flags)) points)
    as (c & Hc & Hnone & Hsub).
  { rewrite !find_str_None. exact Hmiss. }
  rewrite Hsub. apply find_str_None in Hnone.
  destruct (execute env points (Some (tmpfile_name env)) (set_center center kwargs))
    as [[[]|e] t]; cbn [fst snd].
  - split; [intros r; discriminate|]. intros _. exists c.
    split; [done|]. split; [done|].
    unfold with_block, bind, raise. by rewrite app_nil_r.
  - split; [intros r; discriminate|]. discriminate.
Qed.

Lemma missing_placeholder_fails_witness :
  exists c : string,
    c ∈ ["x"; "y"; "z"] /\ (c ∉ chars "xyp") /\
    project Sample.env (PDataFrame Sample.df3) Sample.origin None
            {["F" := Scalar (SStr "xyp")]} =
      (Raise (ValueError ("'" +:+ c +:+ "' is not in list")),
       TempCreate (tmpfile_name Sample.env)
         :: (execute Sample.env (PDataFrame Sample.df3)
               (Some (tmpfile_name Sample.env))
               (set_center Sample.origin {["F" := Scalar (SStr "xyp")]})).2
         ++ [TempRemove (tmpfile_name Sample.env)]).
Proof.
  refine (proj2 (missing_placeholder_fails Sample.env (PDataFrame Sample.df3)
                   Sample.origin {["F" := Scalar (SStr "xyp")]} "xyp" _ _ _) _).
  - reflexivity.
  - reflexivity.
  - right. right. apply find_str_None. reflexivity.
  - reflexivity.
Defined.

(** ** The shape of the returned table *)

Lemma find_str_lookup (x : string) (l : list scalar) (i : nat) :
  PyList.find_str x l = Some i -> l !! i = Some (SStr x).
Proof.
  revert i. induction l as [|item l IH]; intros i; simpl; [discriminate|].
  destruct (PyList.eq_str x item) eqn:E.
  - intros [= <-]. destruct item; try discriminate E.
    simpl in E. apply String.eqb_eq in E as ->. reflexivity.
  - destruct (PyList.find_str x l) as [j|]; [|discriminate].
    intros [= <-]. by apply IH.
Qed.

Lemma find_str_distinct (x y : string) (l : list scalar) (i j : nat) :
  x <> y -> PyList.find_str x l = Some i -> PyList.find_str y l = Some j ->
  i <> j.
Proof.
  intros Hne Hx Hy ->. apply find_str_lookup in Hx, Hy. congruence.
Qed.

Lemma z_expansion_length spec i_x i_y i_z cols :
  i_z < length spec -> 2 <= length cols ->
  length (z_expansion spec i_x i_y i_z cols) = length spec + length cols - 3.
Proof.
  intros Hz Hlen. destruct cols as [|c0 [|c1 extra]]; [simpl in Hlen; lia..|].
  unfold z_expansion.
  rewrite !length_app, length_take, length_drop, !length_insert.
  simpl. lia.
Qed.

(** The names that replace "z" sit at [i_z], [i_z + 1], ... in the input's
    order. *)
Lemma z_expansion_extra spec i_x i_y i_z cols j :
  i_z < length spec -> j < length cols - 2 ->
  z_expansion spec i_x i_y i_z cols !! (i_z + j) = cols !! (2 + j).
Proof.
  intros Hz Hj. destruct cols as [|c0 [|c1 extra]]; [simpl in Hj; lia..|].
  unfold z_expansion. simpl in Hj.
  rewrite lookup_app_r by (rewrite length_take, !length_insert; lia).
  rewrite length_take, !length_insert.
  replace (i_z + j - i_z `min` length spec) with j by lia.
  rewrite lookup_app_l by lia. reflexivity.
Qed.

(** Every other position keeps its entry, moved right by the number of
    names that were added when it follows "z". *)
Lemma z_expansion_other spec i_x i_y i_z cols k :
  i_x <> i_y -> i_x < length spec -> i_y < length spec -> i_z < length spec ->
  2 <= length cols -> k <> i_z ->
  z_expansion spec i_x i_y i_z cols
    !! (if decide (k < i_z) then k else k + (length cols - 2) - 1) =
  if decide (k = i_x) then cols !! 0
  else if decide (k = i_y) then cols !! 1
  else spec !! k.
Proof.
  intros Hxy Hx Hy Hz Hlen Hk.
  destruct cols as [|c0 [|c1 extra]]; [simpl in Hlen; lia..|].
  unfold z_expansion. cbn [length lookup list_lookup].
  set (named := <[i_y:=c1]> (<[i_x:=c0]> spec)).
  assert (length named = length spec) as Hn by (unfold named; by rewrite !length_insert).
  assert (named !! k = if decide (k = i_x) then Some c0
                       else if decide (k = i_y) then Some c1 else spec !! k) as Hnamed.
  { unfold named. repeat case_decide; subst.
    - rewrite list_lookup_insert_ne by done.
      apply list_lookup_insert_eq. lia.
    - apply list_lookup_insert_eq. rewrite length_insert. lia.
    - by rewrite !list_lookup_insert_ne. }
  rewrite <- Hnamed. clear Hnamed. destruct (decide (k < i_z)).
  - rewrite lookup_app_l by (rewrite length_take, Hn; lia).
    apply lookup_take_lt. lia.
  - rewrite lookup_app_r by (rewrite length_take, Hn; lia).
    rewrite length_take, Hn.
    rewrite lookup_app_r by lia.
    rewrite lookup_drop. f_equal. lia.
Qed.

(** The run of [project] on a table, without "G" and without [outfile],
    once the module has run and the reader has parsed the file. *)
Lemma project_table_result env df center kwargs spec i_x i_y i_z rows :
  kwargs !! "G" = None ->
  flag_spec kwargs = Ok spec ->
  PyList.find_str "x" spec = Some i_x ->
  PyList.find_str "y" spec = Some i_y ->
  PyList.find_str "z" spec = Some i_z ->
  2 <= length (columns df) ->
  (execute env (PDataFrame df) (Some (tmpfile_name env))
     (set_center center kwargs)).1 = Ok tt ->
  read_csv env (tmpfile_name env) TAB
    (z_expansion spec i_x i_y i_z (columns df)) = inr rows ->
  project env (PDataFrame df) center None kwargs =
    (Ok (Some (mkDataFrame (z_expansion spec i_x i_y i_z (columns df)) rows)),
     TempCreate (tmpfile_name env)
       :: ((execute env (PDataFrame df) (Some (tmpfile_name env))
              (set_center center kwargs)).2
           ++ [ReadCsv (tmpfile_name env)
                 (z_expansion spec i_x i_y i_z (columns df))])
       ++ [TempRemove (tmpfile_name env)]).
Proof.
  intros HG HF Hx Hy Hz Hlen Hok Hread.
  rewrite (project_table_default _ _ _ _ HG), HF, bind_lift_Ok.
  rewrite (substitute_columns_expands _ _ _ _ _ Hx Hy Hz Hlen), bind_ret.
  unfold pd_read_csv. rewrite Hread.
  destruct (execute env (PDataFrame df) (Some (tmpfile_name env))
              (set_center center kwargs)) as [[[]|e] t]; [|discriminate].
  reflexivity.
Qed.

(** C3: for a table with N > 2 columns, without "G" and without
    [outfile], once the module has run and the file has been read, the
    returned table's names are the column spec with "z" replaced in place
    by the N - 2 input names after the first two, in their order; the
    entries before "z" stay where they are and the ones after it move
    right by N - 3, with the positions of "x" and "y" holding the first two
    input names. *)
Theorem z_placeholder_expands_in_place env df center kwargs spec i_x i_y i_z rows :
  kwargs !! "G" = None ->
  flag_spec kwargs = Ok spec ->
  PyList.find_str "x" spec = Some i_x ->
  PyList.find_str "y" spec = Some i_y ->
  PyList.find_str "z" spec = Some i_z ->
  2 < length (columns df) ->
  (execute env (PDataFrame df) (Some (tmpfile_name env))
     (set_center center kwargs)).1 = Ok tt ->
  read_csv env (tmpfile_name env) TAB
    (z_expansion spec i_x i_y i_z (columns df)) = inr rows ->
  exists names,
    (project env (PDataFrame df) center None kwargs).1
      = Ok (Some (mkDataFrame names rows)) /\
    length names = length spec - 1 + (length (columns df) - 2) /\
    (forall j, j < length (columns df) - 2 ->
       names !! (i_z + j) = columns df !! (2 + j)) /\
    (forall k, k <> i_z ->
       names !! (if decide (k < i_z) then k
                 else k + (length (columns df) - 3)) =
       if decide (k = i_x) then columns df !! 0
       else if decide (k = i_y) then columns df !! 1
       else spec !! k).
Proof.
  intros HG HF Hx Hy Hz Hlen Hok Hread.
  exists (z_expansion spec i_x i_y i_z (columns df)).
  rewrite (project_table_result _ _ _ _ _ _ _ _ _ HG HF Hx Hy Hz
             (Nat.lt_le_incl _ _ Hlen) Hok Hread).
  pose proof (find_str_distinct "x" "y" _ _ _ ltac:(done) Hx Hy) as Hxy.
  apply find_str_lt in Hx, Hy, Hz.
  split; [reflexivity|]. split; [|split].
  - rewrite z_expansion_length by lia. lia.
  - intros j Hj. by apply z_expansion_extra.
  - intros k Hk.
    rewrite <- (z_expansion_other spec i_x i_y i_z (columns df) k) by (done || lia).
    f_equal. case_decide; lia.
Qed.

Lemma z_placeholder_expands_in_place_witness :
  exists names,
    (project Sample.env (PDataFrame Sample.df5) Sample.origin None
             {["F" := Scalar (SStr "pzqyx")]}).1
      = Ok (Some (mkDataFrame names [replicate 7 (SFloat "0.0")])) /\
    length names = length (map SStr (chars "pzqyx")) - 1
                   + (length (columns Sample.df5) - 2) /\
    (forall j, j < length (columns Sample.df5) - 2 ->
       names !! (1 + j) = columns Sample.df5 !! (2 + j)) /\
    (forall k, k <> 1 ->
       names !! (if decide (k < 1) then k
                 else k + (length (columns Sample.df5) - 3)) =
       if decide (k = 4) then columns Sample.df5 !! 0
       else if decide (k = 3) then columns Sample.df5 !! 1
       else map SStr (chars "pzqyx") !! k).
Proof.
  refine (z_placeholder_expands_in_place Sample.env Sample.df5 Sample.origin
            {["F" := Scalar (SStr "pzqyx")]} (map SStr (chars "pzqyx"))
            4 3 1 [replicate 7 (SFloat "0.0")] _ _ _ _ _ _ _ _).
  - reflexivity.
  - reflexivity.
  - reflexivity.
  - reflexivity.
  - reflexivity.
  - simpl. lia.
  - reflexivity.
  - reflexivity.
Defined.

(** C1 (as the code behaves): for a table with N >= 2 columns, without
    "G" and without [outfile], once the module has run and the file has
    been read, the returned table has [length spec + N - 3] columns, which
    is the length of the column spec exactly when N = 3; its first two
    names are the input's first two when the spec starts with "x" then
    "y"; and in general the input's first name sits where "x" ends up and
    the second where "y" ends up: at the letter's own index when it
    precedes "z", and N - 3 places further when it follows "z". *)
Theorem table_column_count env df center kwargs spec i_x i_y i_z rows :
  kwargs !! "G" = None ->
  flag_spec kwargs = Ok spec ->
  PyList.find_str "x" spec = Some i_x ->
  PyList.find_str "y" spec = Some i_y ->
  PyList.find_str "z" spec = Some i_z ->
  2 <= length (columns df) ->
  (execute env (PDataFrame df) (Some (tmpfile_name env))
     (set_center center kwargs)).1 = Ok tt ->
  read_csv env (tmpfile_name env) TAB
    (z_expansion spec i_x i_y i_z (columns df)) = inr rows ->
  exists table,
    (project env (PDataFrame df) center None kwargs).1 = Ok (Some table) /\
    length (columns table) = length spec + length (columns df) - 3 /\
    (length (columns table) = length spec <-> length (columns df) = 3) /\
    (i_x = 0 -> i_y = 1 ->
     columns table !! 0 = columns df !! 0 /\
     columns table !! 1 = columns df !! 1) /\
    columns table
      !! (if decide (i_x < i_z) then i_x
          else i_x + (length (columns df) - 2) - 1) = columns df !! 0 /\
    columns table
      !! (if decide (i_y < i_z) then i_y
          else i_y + (length (columns df) - 2) - 1) = columns df !! 1.
Proof.
  intros HG HF Hx Hy Hz Hlen Hok Hread.
  exists (mkDataFrame (z_expansion spec i_x i_y i_z (columns df)) rows).
  rewrite (project_table_result _ _ _ _ _ _ _ _ _ HG HF Hx Hy Hz Hlen Hok Hread).
  pose proof (find_str_distinct "x" "y" _ _ _ ltac:(done) Hx Hy) as Hxy.
  pose proof (find_str_distinct "x" "z" _ _ _ ltac:(done) Hx Hz) as Hxz.
  pose proof (find_str_distinct "y" "z" _ _ _ ltac:(done) Hy Hz) as Hyz.
  apply find_str_lt in Hx, Hy, Hz. cbn [fst columns].
  split; [reflexivity|]. rewrite z_expansion_length by lia.
  split; [reflexivity|]. split; [lia|].
  pose proof (z_expansion_other spec i_x i_y i_z (columns df) i_x
                Hxy Hx Hy Hz Hlen Hxz) as Hfirst.
  pose proof (z_expansion_other spec i_x i_y i_z (columns df) i_y
                Hxy Hx Hy Hz Hlen Hyz) as Hsecond.
  destruct (decide (i_x = i_x)) as [_|]; [|done].
  destruct (decide (i_y = i_x)) as [|_]; [congruence|].
  destruct (decide (i_y = i_y)) as [_|]; [|done].
  split; [|by split].
  intros -> ->.
  destruct (decide (0 < i_z)); [|lia].
  destruct (decide (1 < i_z)); [|lia]. by split.
Qed.

Lemma table_column_count_witness :
  exists table,
    (project Sample.env (PDataFrame Sample.df3) Sample.origin None ∅).1
      = Ok (Some table) /\
    length (columns table)
      = length (map SStr (chars "xyzpqrs")) + length (columns Sample.df3) - 3 /\
    (length (columns table) = length (map SStr (chars "xyzpqrs"))
       <-> length (columns Sample.df3) = 3) /\
    (0 = 0 -> 1 = 1 ->
     columns table !! 0 = columns Sample.df3 !! 0 /\
     columns table !! 1 = columns Sample.df3 !! 1) /\
    columns table
      !! (if decide (0 < 2) then 0
          else 0 + (length (columns Sample.df3) - 2) - 1)
      = columns Sample.df3 !! 0 /\
    columns table
      !! (if decide (1 < 2) then 1
          else 1 + (length (columns Sample.df3) - 2) - 1)
      = columns Sample.df3 !! 1.
Proof.
  refine (table_column_count Sample.env Sample.df3 Sample.origin ∅
            (map SStr (chars "xyzpqrs")) 0 1 2
            [replicate 7 (SFloat "0.0")] _ _ _ _ _ _ _ _).
  - reflexivity.
  - reflexivity.
  - reflexivity.
  - reflexivity.
  - reflexivity.
  - simpl. lia.
  - reflexivity.
  - reflexivity.
Defined.

(** C1 as stated fails.  A table with two columns under the default spec
    "xyzpqrs" comes back with six columns, not seven; and under the flags
    "yxz" a table with columns lon, lat, depth comes back with lat, lon as
    its first two names. *)
Lemma table_column_count_counterexample :
  (exists table,
     (project Sample.env (PDataFrame Sample.df2) Sample.origin None ∅).1
       = Ok (Some table) /\
     flag_spec ∅ = Ok (map SStr (chars "xyzpqrs")) /\
     length (columns table) = 6 /\
     length (map SStr (chars "xyzpqrs")) = 7) /\
  (exists table,
     (project Sample.env (PDataFrame Sample.df3) Sample.origin None
              {["F" := Scalar (SStr "yxz")]}).1 = Ok (Some table) /\
     columns Sample.df3 = [SStr "lon"; SStr "lat"; SStr "depth"] /\
     columns table = [SStr "lat"; SStr "lon"; SStr "depth"]).
Proof.
  split.
  - eexists. split; [vm_compute; reflexivity|]. by repeat split.
  - eexists. split; [vm_compute; reflexivity|]. by repeat split.
Qed.

(** ** The session block, case by case *)

Lemma snd_bind {A B} (m : M A) (k : A -> M B) :
  (bind m k).2 = m.2 ++ match m.1 with Ok a => (k a).2 | Raise _ => [] end.
Proof.
  destruct m as [[a|e] t]; [rewrite bind_Ok|rewrite bind_Raise];
    cbn [fst snd]; [reflexivity|by rewrite app_nil_r].
Qed.

Lemma lib_call_module_run env module args :
  lib_call_module env module args =
    (call_result env module args, [CallModule module args]).
Proof.
  unfold lib_call_module, call_result.
  by destruct (call_module env module args).
Qed.

Lemma table_body_run env kw o name :
  table_body env kw (Some o) (PStr name) =
    (call_result env "project"
       (join " " [name; build_arg_string env kw; "->" +:+ o]),
     [CallModule "project"
        (join " " [name; build_arg_string env kw; "->" +:+ o])]).
Proof.
  unfold table_body, table_arg_str, redirect.
  by rewrite bind_lift_Ok, lib_call_module_run.
Qed.

Lemma table_body_rejects env kw o csvfile :
  (forall name, csvfile <> PStr name) ->
  exists e, table_body env kw (Some o) csvfile = (Raise e, []).
Proof.
  intros Hne. unfold table_body, table_arg_str, redirect.
  destruct csvfile as [df|name| |q n]; try (eexists; reflexivity).
  by destruct (Hne name).
Qed.

Lemma choose_context_silent env points outfile :
  (choose_context env points outfile).2 = [].
Proof.
  unfold choose_context.
  destruct (data_kind env points) as [d|kind]; [reflexivity|].
  unfold external. rewrite bind_ret.
  destruct (String.eqb kind "matrix").
  - destruct (get_values points); reflexivity.
  - rewrite bind_ret. destruct (String.eqb kind "file"); [|reflexivity].
    by destruct outfile.
Qed.

(** Every run of the block is one of the three of [session_run]. *)
Lemma execute_session_run env points o kw :
  exists r mid,
    execute env points (Some o) kw = (r, SessionCreate :: mid ++ [SessionDestroy])
    /\ session_run env r mid.
Proof.
  unfold execute. destruct (negb (has_key "G" kw)).
  - fold (table_body env kw (Some o)).
    pose proof (choose_context_silent env points (Some o)) as Hsilent.
    destruct (choose_context env points (Some o)) as [[ctx|e] t].
    2:{ cbn [snd] in Hsilent. subst t. exists (Raise e), [].
        split; [reflexivity|constructor]. }
    cbn [snd] in Hsilent. subst t.
    change (bind (Ok ctx, []) ?k) with (bind (ret ctx) k). rewrite bind_ret.
    destruct ctx as [matrix|csvfile]; unfold with_context.
    + destruct (virtualfile_from_matrix env matrix) as [d|vf].
      * exists (Raise (External d)), []. split; [reflexivity|constructor].
      * unfold external. rewrite bind_ret, table_body_run.
        eexists _, _. split; [reflexivity|]. apply run_staged.
    + destruct csvfile as [df|name| |q n].
      2:{ rewrite table_body_run. eexists _, _. split; [reflexivity|].
          apply run_direct. }
      all: match goal with
           | |- context [table_body ?E ?K (Some ?O) ?c] =>
               destruct (table_body_rejects E K O c) as [e ->];
                 [intros name; discriminate|]
           end;
        exists (Raise e), []; (split; [reflexivity|constructor]).
  - unfold generate_arg_str, redirect.
    rewrite bind_lift_Ok, lib_call_module_run.
    eexists _, _. split; [reflexivity|]. apply run_direct.
Qed.

Lemma default_outfile_Some env outfile :
  exists o, default_outfile env outfile = Some o.
Proof. destruct outfile; simpl; eauto. Qed.

(** What follows the block when [outfile] is the temporary file: the
    column names are computed without asking for anything, and the file is
    read under them. *)
Lemma shape_result_default env points kw :
  exists nm : result (list scalar),
    shape_result env points (Some (tmpfile_name env)) kw =
      match nm with
      | Raise e => (Raise e, [])
      | Ok names =>
          (match read_csv env (tmpfile_name env) TAB names with
           | inl descr => Raise (External descr)
           | inr rows => Ok (Some (mkDataFrame names rows))
           end,
           [ReadCsv (tmpfile_name env) names])
      end.
Proof.
  unfold shape_result. rewrite bool_decide_eq_true_2 by done.
  set (names_m := if has_key "G" kw then _ else _).
  assert (names_m.2 = []) as Hsilent.
  { unfold names_m. destruct (has_key "G" kw); [reflexivity|].
    destruct (flag_spec kw) as [spec|e]; [|reflexivity].
    rewrite bind_lift_Ok. unfold substitute_columns.
    repeat (match goal with
            | |- (bind (lift ?r) _).2 = [] =>
                destruct r; [rewrite bind_lift_Ok|reflexivity]
            end).
    reflexivity. }
  destruct names_m as [[names|e] t]; cbn [snd] in Hsilent; subst t.
  - exists (Ok names).
    change (bind (Ok names, []) ?k) with (bind (ret names) k). rewrite bind_ret.
    unfold pd_read_csv.
    by destruct (read_csv env (tmpfile_name env) TAB names).
  - by exists (Raise e).
Qed.

(** What follows the block: nothing, or one read of the temporary file. *)
Lemma shape_result_trace env points outfile kw :
  (shape_result env points outfile kw).2 = [] \/
  exists names,
    outfile = Some (tmpfile_name env) /\
    (shape_result env points outfile kw).2 = [ReadCsv (tmpfile_name env) names].
Proof.
  destruct (decide (outfile = Some (tmpfile_name env))) as [->|Hne].
  - destruct (shape_result_default env points kw) as [[names|e] ->];
      [right; eauto|by left].
  - left. unfold shape_result. by rewrite bool_decide_eq_false_2.
Qed.

(** The run of [project] in terms of the run of its session block. *)
Lemma project_run env points center outfile kwargs :
  exists o r mid,
    default_outfile env outfile = Some o /\ session_run env r mid /\
    project env points center outfile kwargs =
      match r with
      | Raise e =>
          (Raise e,
           TempCreate (tmpfile_name env) :: SessionCreate :: mid
             ++ [SessionDestroy; TempRemove (tmpfile_name env)])
      | Ok _ =>
          ((shape_result env points (Some o) (set_center center kwargs)).1,
           TempCreate (tmpfile_name env) :: SessionCreate :: mid
             ++ SessionDestroy
             :: (shape_result env points (Some o) (set_center center kwargs)).2
             ++ [TempRemove (tmpfile_name env)])
      end.
Proof.
  destruct (default_outfile_Some env outfile) as [o Ho].
  destruct (execute_session_run env points o (set_center center kwargs))
    as (r & mid & Hex & Hrun).
  exists o, r, mid. split; [done|]. split; [done|].
  unfold project. rewrite Ho. cbv zeta. rewrite Hex.
  destruct r as [[]|e].
  - rewrite bind_Ok. unfold with_block. f_equal.
    cbn [app]. by rewrite <- !app_assoc.
  - rewrite bind_Raise. unfold with_block. f_equal.
    cbn [app]. by rewrite <- !app_assoc.
Qed.

(** ** Further properties of [project] *)

(** X1: The trace of every call, whatever the input, the options and the
    behaviour of the collaborators (lines 220-271): the temporary file is
    created first and removed last; the session is created and destroyed
    inside it; the module "project" is invoked at most once, inside the
    session, with the virtual file (if one was staged) open around the
    invocation and closed before the session is destroyed; and the only
    thing that can follow the session is one read of the temporary file,
    which happens only when the block completed. *)
Theorem project_trace_shape env points center outfile kwargs :
  exists r mid post,
    session_run env r mid /\
    (post = [] \/
     exists names, r = Ok tt /\ post = [ReadCsv (tmpfile_name env) names]) /\
    (project env points center outfile kwargs).2 =
      TempCreate (tmpfile_name env) :: SessionCreate :: mid
        ++ SessionDestroy :: post ++ [TempRemove (tmpfile_name env)].
Proof.
  destruct (project_run env points center outfile kwargs)
    as (o & r & mid & _ & Hrun & ->).
  destruct r as [[]|e].
  - exists (Ok tt), mid,
      (shape_result env points (Some o) (set_center center kwargs)).2.
    split; [done|]. split; [|reflexivity].
    destruct (shape_result_trace env points (Some o) (set_center center kwargs))
      as [->|(names & _ & ->)]; [by left|right; eauto].
  - exists (Raise e), mid, []. split; [done|]. split; [by left|reflexivity].
Qed.

(** X2: When the module fails (line 240 or 243), the failure is what
    [project] raises, and the output is not read back. *)
Theorem module_failure_propagates env points center outfile kwargs args descr :
  CallModule "project" args ∈ (project env points center outfile kwargs).2 ->
  call_module env "project" args = Some descr ->
  (project env points center outfile kwargs).1 = Raise (External descr) /\
  forall path names,
    ReadCsv path names ∉ (project env points center outfile kwargs).2.
Proof.
  intros Hin Hcall.
  destruct (project_run env points center outfile kwargs)
    as (o & r & mid & _ & Hrun & Hp).
  rewrite Hp in *. clear Hp.
  assert (forall args', call_result env "project" args' = Ok tt ->
                        args' <> args) as Hother.
  { intros args' Hres ->. unfold call_result in Hres. by rewrite Hcall in Hres. }
  assert (call_result env "project" args = Raise (External descr)) as Hfail.
  { unfold call_result. by rewrite Hcall. }
  destruct Hrun as [e|args'|vf args'].
  - set_unfold. naive_solver.
  - destruct (call_result env "project" args') as [[]|e] eqn:Hres.
    + destruct (shape_result_trace env points (Some o) (set_center center kwargs))
        as [Ht|(names & _ & Ht)]; rewrite Ht in Hin;
        specialize (Hother _ Hres); set_unfold; naive_solver.
    + cbn [fst snd] in *. assert (args' = args) as ->
        by (set_unfold; naive_solver).
      split; [congruence|]. set_unfold. naive_solver.
  - destruct (call_result env "project" args') as [[]|e] eqn:Hres.
    + destruct (shape_result_trace env points (Some o) (set_center center kwargs))
        as [Ht|(names & _ & Ht)]; rewrite Ht in Hin;
        specialize (Hother _ Hres); set_unfold; naive_solver.
    + cbn [fst snd] in *. assert (args' = args) as ->
        by (set_unfold; naive_solver).
      split; [congruence|]. set_unfold. naive_solver.
Qed.

Lemma module_failure_propagates_witness :
  (project Sample.failing (PStr "data.txt") Sample.origin (Some "track.txt") ∅).1
    = Raise (External
        "GMTCLibError: Module 'project' failed with status code 71") /\
  forall path names,
    ReadCsv path names
      ∉ (project Sample.failing (PStr "data.txt") Sample.origin
           (Some "track.txt") ∅).2.
Proof.
  refine (module_failure_propagates Sample.failing (PStr "data.txt")
            Sample.origin (Some "track.txt") ∅ "data.txt -C0/0 ->track.txt"
            _ _ _).
  - apply list_elem_of_In. vm_compute. tauto.
  - reflexivity.
Defined.

(** X3: A file with an explicit [outfile] (lines 228-240): the path itself is
    the first word of the argument string, nothing is staged, the module
    runs once and [project] returns [None] without reading anything
    back. *)
Theorem file_with_outfile_runs_module env path center o kwargs :
  kwargs !! "G" = None ->
  data_kind env (PStr path) = inr "file" ->
  o <> tmpfile_name env ->
  call_module env "project"
    (join " " [path; build_arg_string env (set_center center kwargs);
               "->" +:+ o]) = None ->
  project env (PStr path) center (Some o) kwargs =
    (Ok None,
     [TempCreate (tmpfile_name env); SessionCreate;
      CallModule "project"
        (join " " [path; build_arg_string env (set_center center kwargs);
                   "->" +:+ o]);
      SessionDestroy; TempRemove (tmpfile_name env)]).
Proof.
  intros HG Hkind Hne Hcall. unfold project, execute.
  rewrite has_key_set_center by done. rewrite (has_key_None _ _ HG).
  cbn [negb default_outfile].
  rewrite (choose_context_file _ _ _ Hkind), bind_ret.
  unfold with_context, table_arg_str, redirect.
  rewrite bind_lift_Ok, lib_call_module_run. unfold call_result. rewrite Hcall.
  by rewrite (shape_result_explicit _ _ _ _ Hne).
Qed.

Lemma file_with_outfile_runs_module_witness :
  project Sample.env (PStr "data.txt") Sample.origin (Some "track.txt") ∅ =
    (Ok None,
     [TempCreate "/tmp/pygmt-k3v9x2qa.csv"; SessionCreate;
      CallModule "project" "data.txt -C0/0 ->track.txt";
      SessionDestroy; TempRemove "/tmp/pygmt-k3v9x2qa.csv"]).
Proof.
  refine (file_with_outfile_runs_module Sample.env "data.txt" Sample.origin
            "track.txt" ∅ _ _ _ _).
  - reflexivity.
  - reflexivity.
  - discriminate.
  - reflexivity.
Defined.

Lemma choose_context_matrix env df outfile :
  data_kind env (PDataFrame df) = inr "matrix" ->
  choose_context env (PDataFrame df) outfile = ret (VirtualFile (values df)).
Proof.
  intros Hkind. unfold choose_context. rewrite Hkind.
  unfold external. by rewrite bind_ret.
Qed.

(** X4: A table with an explicit [outfile] (lines 226-240): the cell matrix
    [points.values] is staged as a virtual file, whose name is the first
    word of the argument string; the virtual file is closed after the
    module has run and before the session is destroyed; [project] returns
    [None]. *)
Theorem table_with_outfile_is_staged env df center o kwargs vf :
  kwargs !! "G" = None ->
  data_kind env (PDataFrame df) = inr "matrix" ->
  virtualfile_from_matrix env (values df) = inr vf ->
  o <> tmpfile_name env ->
  call_module env "project"
    (join " " [vf; build_arg_string env (set_center center kwargs);
               "->" +:+ o]) = None ->
  project env (PDataFrame df) center (Some o) kwargs =
    (Ok None,
     [TempCreate (tmpfile_name env); SessionCreate;
      VirtualFileOpen vf;
      CallModule "project"
        (join " " [vf; build_arg_string env (set_center center kwargs);
                   "->" +:+ o]);
      VirtualFileClose vf;
      SessionDestroy; TempRemove (tmpfile_name env)]).
Proof.
  intros HG Hkind Hvf Hne Hcall. unfold project, execute.
  rewrite has_key_set_center by done. rewrite (has_key_None _ _ HG).
  cbn [negb default_outfile].
  rewrite (choose_context_matrix _ _ _ Hkind), bind_ret.
  unfold with_context. rewrite Hvf. unfold external. rewrite bind_ret.
  unfold table_arg_str, redirect.
  rewrite bind_lift_Ok, lib_call_module_run. unfold call_result. rewrite Hcall.
  by rewrite (shape_result_explicit _ _ _ _ Hne).
Qed.

Lemma table_with_outfile_is_staged_witness :
  project Sample.env (PDataFrame Sample.df3) Sample.origin (Some "track.txt") ∅ =
    (Ok None,
     [TempCreate "/tmp/pygmt-k3v9x2qa.csv"; SessionCreate;
      VirtualFileOpen "@GMTAPI@-S-I-D-M-T-N-000000";
      CallModule "project" "@GMTAPI@-S-I-D-M-T-N-000000 -C0/0 ->track.txt";
      VirtualFileClose "@GMTAPI@-S-I-D-M-T-N-000000";
      SessionDestroy; TempRemove "/tmp/pygmt-k3v9x2qa.csv"]).
Proof.
  refine (table_with_outfile_is_staged Sample.env Sample.df3 Sample.origin
            "track.txt" ∅ "@GMTAPI@-S-I-D-M-T-N-000000" _ _ _ _ _).
  - reflexivity.
  - reflexivity.
  - reflexivity.
  - discriminate.
  - reflexivity.
Defined.

(** X5: When the classifier [data_kind] fails (line 226), its failure is what
    [project] raises: the module is not invoked, and the session and the
    temporary file are released. *)
Theorem classifier_failure_propagates env points center outfile kwargs descr :
  kwargs !! "G" = None ->
  data_kind env points = inl descr ->
  project env points center outfile kwargs =
    (Raise (External descr),
     [TempCreate (tmpfile_name env); SessionCreate; SessionDestroy;
      TempRemove (tmpfile_name env)]).
Proof.
  intros HG Hkind. unfold project, execute.
  rewrite has_key_set_center by done. rewrite (has_key_None _ _ HG).
  cbn [negb]. unfold choose_context. rewrite Hkind. reflexivity.
Qed.

Lemma classifier_failure_propagates_witness :
  project Sample.env PNone Sample.origin None ∅ =
    (Raise (External "GMTInvalidInput: No input data provided."),
     [TempCreate "/tmp/pygmt-k3v9x2qa.csv"; SessionCreate; SessionDestroy;
      TempRemove "/tmp/pygmt-k3v9x2qa.csv"]).
Proof.
  refine (classifier_failure_propagates Sample.env PNone Sample.origin None ∅
            "GMTInvalidInput: No input data provided." _ _).
  - reflexivity.
  - reflexivity.
Defined.

(** X6: Line 218 assigns [kwargs["C"]] unconditionally: a "C" the caller put
    among the options is discarded, and the call is the same as without
    it. *)
Theorem center_overrides_option env points center outfile kwargs v :
  project env points center outfile (<["C" := v]> kwargs) =
  project env points center outfile kwargs.
Proof.
  unfold project, set_center. by rewrite insert_insert_eq.
Qed.

(** X7: Without [outfile], a call that returns has returned a table, never
    [None]: the module was asked to write to the temporary file, and the
    table was read from that same file under the names it carries (lines
    220-222, 246, 268). *)
Theorem default_outfile_returns_table env points center kwargs r :
  (project env points center None kwargs).1 = Ok r ->
  exists table pre,
    r = Some table /\
    CallModule "project" (pre +:+ "->" +:+ tmpfile_name env)
      ∈ (project env points center None kwargs).2 /\
    ReadCsv (tmpfile_name env) (columns table)
      ∈ (project env points center None kwargs).2.
Proof.
  unfold project. cbn [default_outfile]. cbv zeta.
  rewrite fst_with_block, snd_with_block, fst_bind, snd_bind.
  destruct (execute env points (Some (tmpfile_name env))
              (set_center center kwargs)).1 as [[]|e] eqn:Hex; [|discriminate].
  destruct (execute_invokes _ _ _ _ Hex) as [pre Hcall].
  destruct (shape_result_default env points (set_center center kwargs))
    as [[names|e] ->]; [|discriminate].
  destruct (read_csv env (tmpfile_name env) TAB names) as [d|rows];
    [discriminate|].
  intros [= <-]. exists (mkDataFrame names rows), pre.
  split; [reflexivity|]. cbn [fst snd columns].
  split; set_unfold; naive_solver.
Qed.

Lemma default_outfile_returns_table_witness :
  exists table pre,
    Some (mkDataFrame (map SStr (chars "rsp")) [replicate 3 (SFloat "0.0")])
      = Some table /\
    CallModule "project" (pre +:+ "->" +:+ tmpfile_name Sample.env)
      ∈ (project Sample.env PNone Sample.origin None
           {["G" := Scalar (SInt 5)]}).2 /\
    ReadCsv (tmpfile_name Sample.env) (columns table)
      ∈ (project Sample.env PNone Sample.origin None
           {["G" := Scalar (SInt 5)]}).2.
Proof.
  refine (default_outfile_returns_table Sample.env PNone Sample.origin
            {["G" := Scalar (SInt 5)]} _ _).
  vm_compute. reflexivity.
Defined.

(** X8: Under the default flags (no "F", lines 253-255 and 258-267), the
    returned table's columns are the input's columns, all of them and in
    their order, followed by p, q, r and s. *)
Theorem default_flags_columns env df center kwargs rows :
  kwargs !! "G" = None ->
  kwargs !! "F" = None ->
  2 <= length (columns df) ->
  (execute env (PDataFrame df) (Some (tmpfile_name env))
     (set_center center kwargs)).1 = Ok tt ->
  read_csv env (tmpfile_name env) TAB (columns df ++ projected_names)
    = inr rows ->
  (project env (PDataFrame df) center None kwargs).1 =
    Ok (Some (mkDataFrame (columns df ++ projected_names) rows)).
Proof.
  intros HG HF Hlen Hok Hread.
  assert (z_expansion (map SStr (chars "xyzpqrs")) 0 1 2 (columns df)
          = columns df ++ projected_names) as Hnames.
  { destruct (columns df) as [|c0 [|c1 extra]]; [simpl in Hlen; lia..|].
    reflexivity. }
  rewrite (project_table_result env df center kwargs
             (map SStr (chars "xyzpqrs")) 0 1 2 rows);
    rewrite ?Hnames; try done.
  unfold flag_spec. by rewrite HF.
Qed.

Lemma default_flags_columns_witness :
  (project Sample.env (PDataFrame Sample.df5) Sample.origin None ∅).1 =
    Ok (Some (mkDataFrame (columns Sample.df5 ++ projected_names)
                [replicate 9 (SFloat "0.0")])).
Proof.
  refine (default_flags_columns Sample.env Sample.df5 Sample.origin ∅
            [replicate 9 (SFloat "0.0")] _ _ _ _ _).
  - reflexivity.
  - reflexivity.
  - simpl. lia.
  - reflexivity.
  - reflexivity.
Defined.

(** X9: A table with fewer than two columns (lines 262-263): once the module
    has run, [project] fails with the [IndexError] of the list subscript
    on [input_column_names], and nothing is read back. *)
Theorem too_few_columns_fails env df center kwargs spec i_x i_y i_z :
  kwargs !! "G" = None ->
  flag_spec kwargs = Ok spec ->
  PyList.find_str "x" spec = Some i_x ->
  PyList.find_str "y" spec = Some i_y ->
  PyList.find_str "z" spec = Some i_z ->
  length (columns df) < 2 ->
  (execute env (PDataFrame df) (Some (tmpfile_name env))
     (set_center center kwargs)).1 = Ok tt ->
  project env (PDataFrame df) center None kwargs =
    (Raise (IndexError "list index out of range"),
     TempCreate (tmpfile_name env)
       :: (execute env (PDataFrame df) (Some (tmpfile_name env))
             (set_center center kwargs)).2
       ++ [TempRemove (tmpfile_name env)]).
Proof.
  intros HG HF Hx Hy Hz Hlen Hok.
  rewrite (project_table_default _ _ _ _ HG), HF, bind_lift_Ok.
  assert (substitute_columns spec (PDataFrame df)
          = raise (IndexError "list index out of range")) as ->.
  { unfold substitute_columns, PyList.index. rewrite Hx, Hy, Hz.
    rewrite !bind_lift_Ok. cbn [get_columns]. rewrite bind_lift_Ok.
    apply find_str_lt in Hx.
    destruct (columns df) as [|c0 [|c1 extra]]; [| |simpl in Hlen; lia].
    - reflexivity.
    - unfold PyList.getitem at 1. cbn [lookup list_lookup].
      rewrite bind_lift_Ok. unfold PyList.setitem at 1.
      rewrite decide_True by done. rewrite bind_lift_Ok. reflexivity. }
  destruct (execute env (PDataFrame df) (Some (tmpfile_name env))
              (set_center center kwargs)) as [[[]|e] t]; [|discriminate].
  unfold with_block, bind, raise. cbn [snd]. by rewrite app_nil_r.
Qed.

Lemma too_few_columns_fails_witness :
  project Sample.env (PDataFrame Sample.df1) Sample.origin None ∅ =
    (Raise (IndexError "list index out of range"),
     TempCreate (tmpfile_name Sample.env)
       :: (execute Sample.env (PDataFrame Sample.df1)
             (Some (tmpfile_name Sample.env))
             (set_center Sample.origin ∅)).2
       ++ [TempRemove (tmpfile_name Sample.env)]).
Proof.
  refine (too_few_columns_fails Sample.env Sample.df1 Sample.origin ∅
            (map SStr (chars "xyzpqrs")) 0 1 2 _ _ _ _ _ _ _).
  - reflexivity.
  - reflexivity.
  - reflexivity.
  - reflexivity.
  - reflexivity.
  - simpl. lia.
  - reflexivity.
Defined.

(** ** Where failures come from *)

Lemma call_result_external env module args :
  raises_only (fun e => exists descr, e = External descr)
    (call_result env module args, [CallModule module args]).
Proof.
  intros e. unfold call_result. cbn [fst].
  destruct (call_module env module args); [|discriminate].
  intros [= <-]. eauto.
Qed.

Lemma pd_read_csv_external env path names :
  raises_only (fun e => exists descr, e = External descr)
    (pd_read_csv env path names).
Proof.
  unfold pd_read_csv.
  apply raises_only_bind; [apply raises_only_emit|]. intros _.
  apply raises_only_bind; [apply raises_only_external; eauto|].
  intros; apply raises_only_ret.
Qed.

(** X10: For a table that is classified as a matrix and has at least two
    columns, under a column spec that has its three placeholders, no
    statement of [project] raises: with or without [outfile], whatever
    the call raises was raised inside a collaborator (the staging of the
    virtual file, the module, the reader). *)
Theorem well_formed_table_fails_only_externally
    env df center outfile kwargs spec i_x i_y i_z e :
  kwargs !! "G" = None ->
  data_kind env (PDataFrame df) = inr "matrix" ->
  flag_spec kwargs = Ok spec ->
  PyList.find_str "x" spec = Some i_x ->
  PyList.find_str "y" spec = Some i_y ->
  PyList.find_str "z" spec = Some i_z ->
  2 <= length (columns df) ->
  (project env (PDataFrame df) center outfile kwargs).1 = Raise e ->
  exists descr, e = External descr.
Proof.
  intros HG Hkind HF Hx Hy Hz Hlen. revert e.
  change (raises_only (fun e => exists descr, e = External descr)
            (project env (PDataFrame df) center outfile kwargs)).
  unfold project. apply raises_only_with_block.
  destruct (default_outfile_Some env outfile) as [o ->]. cbv zeta.
  apply raises_only_bind.
  - unfold execute. apply raises_only_with_block.
    rewrite has_key_set_center by done. rewrite (has_key_None _ _ HG).
    cbn [negb]. rewrite (choose_context_matrix _ _ _ Hkind), bind_ret.
    unfold with_context.
    apply raises_only_bind; [apply raises_only_external; eauto|]. intros vf.
    apply raises_only_with_block. unfold table_arg_str, redirect.
    rewrite bind_lift_Ok, lib_call_module_run. apply call_result_external.
  - intros _. unfold shape_result. case_bool_decide; [|apply raises_only_ret].
    rewrite has_key_set_center by done. rewrite (has_key_None _ _ HG).
    rewrite flag_spec_set_center, HF, bind_lift_Ok.
    rewrite (substitute_columns_expands _ _ _ _ _ Hx Hy Hz Hlen), bind_ret.
    apply raises_only_bind; [apply pd_read_csv_external|].
    intros; apply raises_only_ret.
Qed.

Lemma well_formed_table_fails_only_externally_witness :
  exists descr,
    External "GMTCLibError: Module 'project' failed with status code 71"
      = External descr.
Proof.
  refine (well_formed_table_fails_only_externally Sample.failing Sample.df3
            Sample.origin None ∅ (map SStr (chars "xyzpqrs")) 0 1 2 _
            _ _ _ _ _ _ _ _).
  - reflexivity.
  - reflexivity.
  - reflexivity.
  - reflexivity.
  - reflexivity.
  - reflexivity.
  - simpl. lia.
  - reflexivity.
Defined.

(** X11: In generate mode ("G" among the options, lines 241-243 and 247-248)
    no statement of [project] raises, whatever [points] is: the input is
    not classified, so no [GMTInvalidInput] can come out of [project], and
    whatever the call raises was raised by the module or by the reader. *)
Theorem generate_fails_only_externally env points center outfile kwargs g e :
  kwargs !! "G" = Some g ->
  (project env points center outfile kwargs).1 = Raise e ->
  exists descr, e = External descr.
Proof.
  intros HG. revert e.
  change (raises_only (fun e => exists descr, e = External descr)
            (project env points center outfile kwargs)).
  unfold project. apply raises_only_with_block.
  destruct (default_outfile_Some env outfile) as [o ->]. cbv zeta.
  apply raises_only_bind.
  - unfold execute. apply raises_only_with_block.
    rewrite has_key_set_center by done. rewrite (has_key_Some _ _ _ HG).
    cbn [negb]. unfold generate_arg_str, redirect.
    rewrite bind_lift_Ok, lib_call_module_run. apply call_result_external.
  - intros _. unfold shape_result. case_bool_decide; [|apply raises_only_ret].
    rewrite has_key_set_center by done. rewrite (has_key_Some _ _ _ HG).
    rewrite bind_ret.
    apply raises_only_bind; [apply pd_read_csv_external|].
    intros; apply raises_only_ret.
Qed.

Lemma generate_fails_only_externally_witness :
  exists descr,
    External "GMTCLibError: Module 'project' failed with status code 71"
      = External descr.
Proof.
  refine (generate_fails_only_externally Sample.failing PNone Sample.origin
            None {["G" := Scalar (SInt 5)]} (Scalar (SInt 5)) _ _ _).
  - reflexivity.
  - reflexivity.
Defined.
